(** * Rad-it-Server: the user resolver (src/resolvers/user.ts)

    A shallow embedding of [UserResolver]: the five GraphQL operations
    [forgotPassword], [me], [register], [login] and [logout], written as
    state-passing functions over the part of the request context they
    touch (Redis, the session, the clock, the uuid source) and recording
    every call they make to a collaborator. *)

From Stdlib Require Import ZArith String Ascii List Bool Lia.
From stdpp Require Import base option strings gmap.
Import ListNotations.

Local Open Scope string_scope.
Local Open Scope Z_scope.

(** ** JavaScript strings *)

(** [String.prototype.includes]: [includes needle hay] is [hay.includes(needle)]. *)
Fixpoint includes (needle hay : string) : bool :=
  String.prefix needle hay ||
  match hay with
  | EmptyString => false
  | String _ rest => includes needle rest
  end.

(** The double-quote character, used inside the HTML of the reset link. *)
Definition dquote : string := String (ascii_of_nat 34) EmptyString.

(** ** Data model *)

Module User.
(** A row of the user table, as [em.findOne] and the insert's
    [returning("*")] hand it to the resolver. *)
Record t := mk {
  id : Z;
  username : string;
  email : string;
  password : string;
  created_at : Z;
  updated_at : Z
}.
End User.

Module UsernamePasswordInput.
Record t := mk {
  username : string;
  email : string;
  password : string
}.
End UsernamePasswordInput.

Record FieldError := mkFieldError {
  field : string;
  message : string
}.

(** [UserResponse]: both members are optional in the source. *)
Record UserResponse := mkUserResponse {
  errors : option (list FieldError);
  user : option User.t
}.

(** The criteria object passed to [em.findOne(User, ...)]. *)
Inductive Criteria :=
| ByEmail (e : string)
| ByUsername (u : string)
| ById (i : Z).

(** The object passed to knex's [insert]. *)
Record InsertFields := mkInsertFields {
  ins_username : string;
  ins_email : string;
  ins_password : string;
  ins_created_at : Z;
  ins_updated_at : Z
}.

(** What the catch block of [register] reads off the thrown value:
    [err.detail], which may be undefined. *)
Record DriverError := mkDriverError {
  detail : option string
}.

(** The entity manager of the request context. *)
Record EntityManager := mkEntityManager {
  em_findOne : Criteria -> option User.t;
  em_insert : InsertFields -> DriverError + User.t
}.

(** [req.session]. *)
Record Session := mkSession {
  userId : option Z
}.

(** The context of one request: the entity manager and what the session
    store will report to the callback of [destroy]. *)
Record MyContext := mkContext {
  em : EntityManager;
  store_destroy_error : option string
}.

(** Redis [SET key value EX seconds] and [SET key value PX milliseconds]. *)
Inductive ExpiryMode := EX | PX.

Definition ttl_millis (mode : ExpiryMode) (n : Z) : Z :=
  match mode with
  | EX => n * 1000
  | PX => n
  end.

Record RedisEntry := mkRedisEntry {
  entry_value : Z;
  expires_at : Z
}.

(** Calls made to collaborators, in the order they are made. *)
Inductive Call :=
| FindOne (c : Criteria)
| Argon2Hash (plain : string)
| Argon2Verify (hashed plain : string)
| KnexInsert (f : InsertFields)
| UuidV4 (token : string)
| RedisSet (key : string) (value : Z) (mode : ExpiryMode) (n : Z)
| SessionDestroy
| ClearCookie (name : string)
| ConsoleLog (err : string).

(** The mutable part of the world a resolver runs in. [clock] is in
    milliseconds; [session] is [None] once [req.session] has been deleted;
    [uuids] counts the tokens drawn so far. *)
Record World := mkWorld {
  redis : gmap string RedisEntry;
  clock : Z;
  session : option Session;
  uuids : nat;
  calls : list Call
}.

Definition set_redis (r : gmap string RedisEntry) (w : World) : World :=
  mkWorld r (clock w) (session w) (uuids w) (calls w).
Definition set_clock (t : Z) (w : World) : World :=
  mkWorld (redis w) t (session w) (uuids w) (calls w).
Definition set_session (s : option Session) (w : World) : World :=
  mkWorld (redis w) (clock w) s (uuids w) (calls w).
Definition set_uuids (n : nat) (w : World) : World :=
  mkWorld (redis w) (clock w) (session w) n (calls w).
Definition record_call (c : Call) (w : World) : World :=
  mkWorld (redis w) (clock w) (session w) (uuids w) (calls w ++ [c]).

(** Time passing between two requests. *)
Definition advance (dt : Z) (w : World) : World :=
  set_clock (clock w + dt) w.

(** Redis [GET] at instant [now]: a key is expired once the instant is past
    its expiry time. *)
Definition redis_get (store : gmap string RedisEntry) (now : Z) (key : string)
  : option Z :=
  match store !! key with
  | Some e => if now <=? expires_at e then Some (entry_value e) else None
  | None => None
  end.

(** ** The resolver monad: state, with JavaScript exceptions *)

Inductive Thrown :=
| TypeError (msg : string)
| ReferenceError (msg : string).

Inductive Outcome (A : Type) :=
| Return (a : A)
| Throw (e : Thrown).
Arguments Return {A} a.
Arguments Throw {A} e.

Definition Resolver (A : Type) : Type := World -> Outcome A * World.

Definition ret {A} (a : A) : Resolver A := fun w => (Return a, w).
Definition throw {A} (e : Thrown) : Resolver A := fun w => (Throw e, w).
Definition bind {A B} (m : Resolver A) (k : A -> Resolver B) : Resolver B :=
  fun w =>
    match m w with
    | (Return a, w') => k a w'
    | (Throw e, w') => (Throw e, w')
    end.

Notation "x <- m ;; k" := (bind m (fun x => k))
  (at level 100, m at next level, right associativity).
Notation "m ;;; k" := (bind m (fun _ => k))
  (at level 100, right associativity).

(** Primitive effects. *)
Definition call (c : Call) : Resolver unit :=
  fun w => (Return tt, record_call c w).
Definition now : Resolver Z := fun w => (Return (clock w), w).

Definition findOne (ctx : MyContext) (c : Criteria) : Resolver (option User.t) :=
  call (FindOne c) ;;; ret (em_findOne (em ctx) c).

Definition knexInsert (ctx : MyContext) (f : InsertFields)
  : Resolver (DriverError + User.t) :=
  call (KnexInsert f) ;;; ret (em_insert (em ctx) f).

Definition redis_set (key : string) (value : Z) (mode : ExpiryMode) (n : Z)
  : Resolver unit :=
  fun w =>
    (Return tt,
     record_call (RedisSet key value mode n)
       (set_redis (<[key := mkRedisEntry value (clock w + ttl_millis mode n)]>
                     (redis w)) w)).

(** [sendEmail] is neither imported nor declared in user.ts: the name does
    not resolve when the call is evaluated, which throws before any
    argument is used. Nothing is ever sent. *)
Definition sendEmail (to_ html : string) : Resolver unit :=
  throw (ReferenceError "sendEmail is not defined").

Definition clearCookie (name : string) : Resolver unit :=
  call (ClearCookie name).

Definition console_log (err : string) : Resolver unit :=
  call (ConsoleLog err).

(** [req.session.destroy(cb)]: the session is deleted from the request, and
    the callback receives what the store reports. Without a session the
    property access throws. *)
Definition session_destroy (ctx : MyContext) : Resolver (option string) :=
  fun w =>
    match session w with
    | None => (Throw (TypeError "Cannot read properties of undefined (reading 'destroy')"), w)
    | Some _ =>
        (Return (store_destroy_error ctx),
         record_call SessionDestroy (set_session None w))
    end.

(** Reading [req.session.userId]. *)
Definition session_userId : Resolver (option Z) :=
  fun w =>
    match session w with
    | None => (Throw (TypeError "Cannot read properties of undefined (reading 'userId')"), w)
    | Some s => (Return (userId s), w)
    end.

(** [req.session!.userId = id]. *)
Definition session_set_userId (i : Z) : Resolver unit :=
  fun w =>
    match session w with
    | None => (Throw (TypeError "Cannot set properties of undefined (setting 'userId')"), w)
    | Some _ => (Return tt, set_session (Some (mkSession (Some i))) w)
    end.

(** JavaScript truthiness of [number | undefined]: undefined and 0 are falsy. *)
Definition truthy_id (v : option Z) : bool :=
  match v with
  | None => false
  | Some i => negb (i =? 0)
  end.

(** ** The collaborators the resolver is run against *)

(** The detail PostgreSQL attaches to a unique-constraint violation on
    [column], as the driver hands it to the catch block of [register]. *)
Definition unique_violation (column value : string) : DriverError :=
  mkDriverError (Some ("Key (" +:+ column +:+ ")=(" +:+ value +:+ ") already exists.")).

Definition matches (c : Criteria) (u : User.t) : bool :=
  match c with
  | ByEmail e => String.eqb (User.email u) e
  | ByUsername n => String.eqb (User.username u) n
  | ById i => User.id u =? i
  end.

(** A user table with unique constraints on username and on email. *)
Definition pg_findOne (table : list User.t) (c : Criteria) : option User.t :=
  find (matches c) table.

Definition pg_insert (table : list User.t) (next_id : Z) (f : InsertFields)
  : DriverError + User.t :=
  if existsb (matches (ByUsername (ins_username f))) table then
    inl (unique_violation "username" (ins_username f))
  else if existsb (matches (ByEmail (ins_email f))) table then
    inl (unique_violation "email" (ins_email f))
  else
    inr (User.mk next_id (ins_username f) (ins_email f) (ins_password f)
                 (ins_created_at f) (ins_updated_at f)).

Definition pg_em (table : list User.t) (next_id : Z) : EntityManager :=
  mkEntityManager (pg_findOne table) (pg_insert table next_id).

(** An entity manager whose insert is rejected with [err]. *)
Definition rejecting_em (table : list User.t) (err : DriverError) : EntityManager :=
  mkEntityManager (pg_findOne table) (fun _ => inl err).

(** Modelled from the spec: the rules of the Input Validator
    ([../utils/validateRegister] is not among the sources). Every violation
    is reported, in the order the spec lists the rules; the spec does not
    fix the wording of the messages. *)
Definition violations (o : UsernamePasswordInput.t) : list FieldError :=
  (if (String.length (UsernamePasswordInput.username o) <? 3)%nat
   then [mkFieldError "username" "length must be at least 3"] else []) ++
  (if includes "@" (UsernamePasswordInput.username o)
   then [mkFieldError "username" "must not contain @"] else []) ++
  (if includes "@" (UsernamePasswordInput.email o)
   then [] else [mkFieldError "email" "must contain @"]) ++
  (if (String.length (UsernamePasswordInput.password o) <? 3)%nat
   then [mkFieldError "password" "length must be at least 3"] else []).

(** Modelled from the spec: the validator with these rules. For an input
    without violations it returns null, the value the test [if (errors)]
    of [register] lets through. *)
Definition validateRegister_nullable (o : UsernamePasswordInput.t)
  : option (list FieldError) :=
  match violations o with
  | [] => None
  | errs => Some errs
  end.

(** Values of the properties of a JavaScript object. *)
Inductive JsValue :=
| JsNumber (z : Z)
| JsString (s : string).

(** The properties of the object [register] hands back as [user]: the row
    returned by the insert, all columns included. *)
Definition row_properties (u : User.t) : list (string * JsValue) :=
  [ ("id", JsNumber (User.id u));
    ("username", JsString (User.username u));
    ("email", JsString (User.email u));
    ("password", JsString (User.password u));
    ("created_at", JsNumber (User.created_at u));
    ("updated_at", JsNumber (User.updated_at u)) ].

Fixpoint property (name : string) (obj : list (string * JsValue)) : option JsValue :=
  match obj with
  | [] => None
  | (k, v) :: rest => if String.eqb k name then Some v else property name rest
  end.


(** Sample data. *)
Definition sample_hash (plain : string) : string := "$argon2i$" +:+ plain.
Definition sample_verify (hashed plain : string) : bool :=
  String.eqb hashed (sample_hash plain).

Definition sample_v4 (n : nat) : string :=
  match n with
  | O => "1b9d6bcd-bbfd-4b2d-9b5d-ab8dfbbd4bed"
  | S O => "9c858901-8a57-4791-81fe-4c455b099bc9"
  | _ => "6ec0bd7f-11c0-43da-975e-2a8ad9ebae0b"
  end.

Definition alice : User.t :=
  User.mk 1 "alice" "alice@x.com" (sample_hash "secret1") 0 0.

(** A user whose key is 0. *)
Definition zero : User.t :=
  User.mk 0 "zero" "zero@x.com" (sample_hash "secret0") 0 0.

Definition fresh_world : World :=
  mkWorld ∅ 0 (Some (mkSession None)) 0 [].

Definition ctx_alice : MyContext := mkContext (pg_em [alice] 2) None.
Definition ctx_empty : MyContext := mkContext (pg_em [] 1) None.

Definition three_days_ms : Z := 259200000.
Definition four_days_ms : Z := 345600000.

Definition options_bob : UsernamePasswordInput.t :=
  UsernamePasswordInput.mk "bob" "bob@x.com" "secret1".
(** A new username with the e-mail of [alice]. *)
Definition options_bob_with_alices_email : UsernamePasswordInput.t :=
  UsernamePasswordInput.mk "bob" "alice@x.com" "secret1".

(** A store that rejects the insert for a reason other than a duplicate. *)
Definition ctx_rejecting : MyContext :=
  mkContext (rejecting_em [] (mkDriverError (Some "Failing row contains (2, bob, bob@x.com)."))) None.
(** A store that rejects the insert with an error that has no detail. *)
Definition ctx_rejecting_plain : MyContext :=
  mkContext (rejecting_em [] (mkDriverError None)) None.
(** A session store that fails to destroy. *)
Definition ctx_destroy_fails : MyContext :=
  mkContext (pg_em [alice] 2) (Some "ECONNRESET").

Definition ctx_zero : MyContext := mkContext (pg_em [zero] 1) None.
Definition world_of_session (s : Session) : World :=
  set_session (Some s) fresh_world.

(** A request on which [req.session] is undefined. *)
Definition world_without_session : World := set_session None fresh_world.

(** A table with two users, and a uuid source that repeats itself. *)
Definition ctx_two : MyContext := mkContext (pg_em [alice; zero] 2) None.
Definition stuck_v4 (n : nat) : string := "1b9d6bcd-bbfd-4b2d-9b5d-ab8dfbbd4bed".

(** The calls made between two worlds. *)
Definition made (w w' : World) : list Call :=
  drop (length (calls w)) (calls w').

(** ** The resolvers *)

Section UserResolver.

(** Constants of [../constants]. *)
Variable FORGET_PASSWORD_PREFIX : string.
Variable COOKIE_NAME : string.

(** [validateRegister] of [../utils/validateRegister]: its result is
    tested for truthiness by [register], so it is an array of field
    errors ([Some], also when the array is empty) or null ([None]). *)
Variable validateRegister : UsernamePasswordInput.t -> option (list FieldError).

(** The argon2 library. *)
Variable argon2_hash : string -> string.
Variable argon2_verify : string -> string -> bool.

(** The uuid library: the n-th token [v4()] yields. *)
Variable v4 : nat -> string.

Definition hash (plain : string) : Resolver string :=
  call (Argon2Hash plain) ;;; ret (argon2_hash plain).

Definition verify (hashed plain : string) : Resolver bool :=
  call (Argon2Verify hashed plain) ;;; ret (argon2_verify hashed plain).

Definition uuid_v4 : Resolver string :=
  fun w =>
    let token := v4 (uuids w) in
    (Return token, record_call (UuidV4 token) (set_uuids (S (uuids w)) w)).

(** The template literal [forgotPassword] writes as the second argument of
    [sendEmail]. *)
Definition reset_link (token : string) : string :=
  "<a href=" +:+ dquote +:+ "http://localhost:3000/change-password/" +:+ token
    +:+ dquote +:+ ">reset password</a>".

Definition forgotPassword (email : string) (ctx : MyContext) : Resolver bool :=
  user <- findOne ctx (ByEmail email) ;;
  match user with
  | None => ret true
  | Some user =>
      token <- uuid_v4 ;;
      redis_set (FORGET_PASSWORD_PREFIX +:+ token) (User.id user)
                EX (1000 * 60 * 60 * 24 * 3) ;;;
      sendEmail email (reset_link token) ;;;
      ret true
  end.

Definition me (ctx : MyContext) : Resolver (option User.t) :=
  uid <- session_userId ;;
  if negb (truthy_id uid) then ret None
  else
    match uid with
    | Some i => findOne ctx (ById i)
    | None => ret None
    end.

Definition register (options : UsernamePasswordInput.t) (ctx : MyContext)
  : Resolver UserResponse :=
  match validateRegister options with
  | Some errors => ret (mkUserResponse (Some errors) None)
  | None =>
      hashedPassword <- hash (UsernamePasswordInput.password options) ;;
      created <- now ;;
      updated <- now ;;
      result <- knexInsert ctx
                  (mkInsertFields (UsernamePasswordInput.username options)
                                  (UsernamePasswordInput.email options)
                                  hashedPassword created updated) ;;
      match result with
      | inr row => ret (mkUserResponse None (Some row))
      | inl err =>
          match detail err with
          | None =>
              throw (TypeError "Cannot read properties of undefined (reading 'includes')")
          | Some d =>
              if includes "already exists" d then
                ret (mkUserResponse
                       (Some [mkFieldError "username"
                                "this username has already been taken"])
                       None)
              else ret (mkUserResponse None None)
          end
      end
  end.

Definition login (usernameOrEmail password : string) (ctx : MyContext)
  : Resolver UserResponse :=
  user <- findOne ctx (if includes "@" usernameOrEmail
                       then ByEmail usernameOrEmail
                       else ByUsername usernameOrEmail) ;;
  match user with
  | None =>
      ret (mkUserResponse
             (Some [mkFieldError "usernameOrEmail" "username does not exist"])
             None)
  | Some user =>
      valid <- verify (User.password user) password ;;
      if negb valid then
        ret (mkUserResponse
               (Some [mkFieldError "password" "incorrect password"]) None)
      else
        session_set_userId (User.id user) ;;;
        ret (mkUserResponse None (Some user))
  end.

Definition logout (ctx : MyContext) : Resolver bool :=
  err <- session_destroy ctx ;;
  clearCookie COOKIE_NAME ;;;
  match err with
  | Some e => console_log e ;;; ret false
  | None => ret true
  end.

(** The object [register] passes to the insert, in the world it runs in. *)
Definition inserted_fields (options : UsernamePasswordInput.t) (w : World)
  : InsertFields :=
  mkInsertFields (UsernamePasswordInput.username options)
                 (UsernamePasswordInput.email options)
                 (argon2_hash (UsernamePasswordInput.password options))
                 (clock w) (clock w).

(** ** Properties *)

(** *** Strings *)

Lemma includes_append_right (needle a b : string) :
  includes needle b = true -> includes needle (a +:+ b) = true.
Proof.
  intros Hb. induction a as [|c a IH]; simpl.
  - exact Hb.
  - rewrite IH. apply orb_true_r.
Qed.

Lemma unique_violation_detail (column value : string) :
  exists d, detail (unique_violation column value) = Some d /\
            includes "already exists" d = true.
Proof.
  eexists. split; [reflexivity|].
  do 4 apply includes_append_right. reflexivity.
Qed.

Lemma append_inj_right (p a b : string) : p +:+ a = p +:+ b -> a = b.
Proof.
  induction p as [|c p IH]; simpl; intros H.
  - exact H.
  - injection H as H. auto.
Qed.

(** *** Redis *)

Lemma redis_get_alive (store : gmap string RedisEntry) (key : string) (e : RedisEntry) (t : Z) :
  store !! key = Some e -> t <= expires_at e ->
  redis_get store t key = Some (entry_value e).
Proof.
  intros Hk Ht. unfold redis_get. rewrite Hk.
  destruct (Z.leb_spec t (expires_at e)); [reflexivity | lia].
Qed.

Lemma redis_get_expired (store : gmap string RedisEntry) (key : string) (e : RedisEntry) (t : Z) :
  store !! key = Some e -> expires_at e < t ->
  redis_get store t key = None.
Proof.
  intros Hk Ht. unfold redis_get. rewrite Hk.
  destruct (Z.leb_spec t (expires_at e)); [lia | reflexivity].
Qed.

Ltac run :=
  unfold bind, ret, throw, call, now, findOne, knexInsert, redis_set, sendEmail,
    clearCookie, console_log, session_destroy, session_userId,
    session_set_userId; simpl.

Lemma made_app (w w' : World) (l : list Call) :
  calls w' = (calls w ++ l)%list -> made w w' = l.
Proof.
  intros H. unfold made. rewrite H. apply drop_app_length.
Qed.

(** *** forgotPassword *)

Lemma forgotPassword_registered (email : string) (ctx : MyContext) (w : World) (u : User.t) :
  em_findOne (em ctx) (ByEmail email) = Some u ->
  forgotPassword email ctx w =
    (Throw (ReferenceError "sendEmail is not defined"),
     mkWorld (<[(FORGET_PASSWORD_PREFIX +:+ v4 (uuids w)) :=
                  mkRedisEntry (User.id u) (clock w + 259200000 * 1000)]> (redis w))
             (clock w) (session w) (S (uuids w))
             (calls w ++ [FindOne (ByEmail email);
                          UuidV4 (v4 (uuids w));
                          RedisSet ((FORGET_PASSWORD_PREFIX +:+ v4 (uuids w))) (User.id u) EX 259200000])).
Proof.
  intros Hu. unfold forgotPassword, uuid_v4. run. rewrite Hu. simpl.
  unfold record_call, set_redis, set_uuids; simpl.
  rewrite <- !app_assoc. reflexivity.
Qed.

Lemma forgotPassword_unregistered (email : string) (ctx : MyContext) (w : World) :
  em_findOne (em ctx) (ByEmail email) = None ->
  forgotPassword email ctx w = (Return true, record_call (FindOne (ByEmail email)) w).
Proof.
  intros Hu. unfold forgotPassword. run. rewrite Hu. reflexivity.
Qed.

Lemma forgotPassword_token_expiry (email : string) (ctx : MyContext) (w : World) (u : User.t) :
  em_findOne (em ctx) (ByEmail email) = Some u ->
  redis (snd (forgotPassword email ctx w)) !! (FORGET_PASSWORD_PREFIX +:+ v4 (uuids w))
  = Some (mkRedisEntry (User.id u) (clock w + 259200000 * 1000)).
Proof.
  intros Hu. rewrite (forgotPassword_registered _ _ _ _ Hu). simpl.
  apply lookup_insert_eq.
Qed.

(** C10, amended: two successive [forgotPassword] calls for the same
    registered e-mail, [dt] milliseconds apart, whose tokens differ: the
    keys differ,
    the second call leaves the first token's entry as it was and touches no
    other key, and each token resolves to the user's id up to its own expiry
    time and to nothing after it. *)
Theorem forgotPassword_twice_keeps_both
  (email : string) (ctx : MyContext) (w : World) (u : User.t) (dt : Z) :
  em_findOne (em ctx) (ByEmail email) = Some u ->
  v4 (uuids w) <> v4 (S (uuids w)) ->
  let w1 := snd (forgotPassword email ctx w) in
  let w2 := snd (forgotPassword email ctx (advance dt w1)) in
  let k1 := FORGET_PASSWORD_PREFIX +:+ v4 (uuids w) in
  let k2 := FORGET_PASSWORD_PREFIX +:+ v4 (S (uuids w)) in
  let ttl := ttl_millis EX (1000 * 60 * 60 * 24 * 3) in
  k1 <> k2 /\
  redis w1 !! k1 = Some (mkRedisEntry (User.id u) (clock w + ttl)) /\
  (forall k, k <> k2 -> redis w2 !! k = redis w1 !! k) /\
  redis w2 !! k2 = Some (mkRedisEntry (User.id u) (clock w + dt + ttl)) /\
  (forall t, t <= clock w + ttl -> redis_get (redis w2) t k1 = Some (User.id u)) /\
  (forall t, clock w + ttl < t -> redis_get (redis w2) t k1 = None) /\
  (forall t, t <= clock w + dt + ttl -> redis_get (redis w2) t k2 = Some (User.id u)) /\
  (forall t, clock w + dt + ttl < t -> redis_get (redis w2) t k2 = None).
Proof.
  intros Hu Hfresh w1 w2 k1 k2 ttl.
  assert (Hk : k1 <> k2).
  { intros E. apply Hfresh. exact (append_inj_right _ _ _ E). }
  assert (H1 : redis w1 !! k1 = Some (mkRedisEntry (User.id u) (clock w + ttl))).
  { subst w1 k1 ttl. apply forgotPassword_token_expiry. exact Hu. }
  assert (Hw1 : uuids w1 = S (uuids w) /\ clock w1 = clock w).
  { subst w1. rewrite (forgotPassword_registered _ _ _ _ Hu). split; reflexivity. }
  destruct Hw1 as [Hn Hc].
  assert (Hr2 : redis w2 = <[k2 := mkRedisEntry (User.id u) (clock w + dt + ttl)]> (redis w1)).
  { subst w2. rewrite (forgotPassword_registered _ _ _ _ Hu). cbn [snd redis].
    unfold advance, set_clock. cbn [uuids clock redis]. rewrite Hn, Hc. reflexivity. }
  assert (H2 : redis w2 !! k2 = Some (mkRedisEntry (User.id u) (clock w + dt + ttl))).
  { rewrite Hr2. apply lookup_insert_eq. }
  assert (Hframe : forall k, k <> k2 -> redis w2 !! k = redis w1 !! k).
  { intros k Hne. rewrite Hr2. apply lookup_insert_ne. congruence. }
  assert (H12 : redis w2 !! k1 = Some (mkRedisEntry (User.id u) (clock w + ttl))).
  { rewrite Hframe by exact Hk. exact H1. }
  repeat split; try assumption.
  - intros t Ht. exact (redis_get_alive _ _ _ _ H12 Ht).
  - intros t Ht. exact (redis_get_expired _ _ _ _ H12 Ht).
  - intros t Ht. exact (redis_get_alive _ _ _ _ H2 Ht).
  - intros t Ht. exact (redis_get_expired _ _ _ _ H2 Ht).
Qed.

(** *** logout *)

(** C8: on a request that has a session, [logout] asks for the session to
    be destroyed, then clears the cookie [COOKIE_NAME] whatever the store
    reports; it returns true when the store reports no error and false when
    it reports one, in which case the error is passed to [console.log] and
    nothing is thrown. *)
Theorem logout_always_clears_cookie (ctx : MyContext) (w : World) (s : Session) :
  session w = Some s ->
  let w' := snd (logout ctx w) in
  In (ClearCookie COOKIE_NAME) (made w w') /\
  fst (logout ctx w)
  = Return (match store_destroy_error ctx with None => true | Some _ => false end) /\
  made w w'
  = SessionDestroy :: ClearCookie COOKIE_NAME ::
      match store_destroy_error ctx with
      | Some e => [ConsoleLog e]
      | None => []
      end /\
  session w' = None.
Proof.
  intros Hs. unfold logout. run. rewrite Hs. simpl.
  destruct (store_destroy_error ctx) as [e|]; simpl;
    (erewrite made_app; [|unfold record_call; simpl; rewrite <- !app_assoc; reflexivity]);
    simpl; auto.
Qed.

(** *** me *)

Lemma me_result (ctx : MyContext) (w : World) (s : Session) :
  session w = Some s ->
  fst (me ctx w)
  = Return (match userId s with
            | Some i => if i =? 0 then None else em_findOne (em ctx) (ById i)
            | None => None
            end).
Proof.
  intros Hs. unfold me. run. rewrite Hs. simpl.
  destruct (userId s) as [i|]; simpl; [|reflexivity].
  destruct (i =? 0); reflexivity.
Qed.

(** C9, amended: for every session, [me] returns the user found under
    [session.userId] when that id is present and not 0 and the store has a
    user with it; when the session has no userId, when the userId is 0, or
    when the store has no such user, it returns null. It never throws. *)
Theorem me_returns_user_of_truthy_id (ctx : MyContext) (w : World) (s : Session) :
  session w = Some s ->
  (forall i u, userId s = Some i -> i <> 0 ->
               em_findOne (em ctx) (ById i) = Some u ->
               fst (me ctx w) = Return (Some u)) /\
  (userId s = None \/ userId s = Some 0 \/
   (exists i, userId s = Some i /\ em_findOne (em ctx) (ById i) = None) ->
   fst (me ctx w) = Return None) /\
  (exists r, fst (me ctx w) = Return r).
Proof.
  intros Hs. rewrite (me_result _ _ _ Hs). repeat split.
  - intros i u Hi Hnz Hu. rewrite Hi.
    destruct (Z.eqb_spec i 0); [contradiction | now rewrite Hu].
  - intros [H | [H | (i & H & Hu)]]; rewrite H; try reflexivity.
    destruct (i =? 0); [reflexivity | now rewrite Hu].
  - eauto.
Qed.

(** *** login *)

(** C4, amended: the first and only lookup of [login] is by e-mail when the
    identifier contains '@' and by username otherwise; when that lookup
    finds nobody, the result is the single error on field
    "usernameOrEmail" with message "username does not exist", and nothing
    else is called. *)
Theorem login_unknown_identifier (usernameOrEmail password : string) (ctx : MyContext) (w : World) :
  let key := if includes "@" usernameOrEmail
             then ByEmail usernameOrEmail else ByUsername usernameOrEmail in
  let w' := snd (login usernameOrEmail password ctx w) in
  (exists rest, made w w' = FindOne key :: rest /\
                forall c, ~ In (FindOne c) rest) /\
  (em_findOne (em ctx) key = None ->
   login usernameOrEmail password ctx w
   = (Return (mkUserResponse
                (Some [mkFieldError "usernameOrEmail" "username does not exist"])
                None),
      record_call (FindOne key) w)).
Proof.
  cbv zeta. unfold login, verify. run.
  set (key := if includes "@" usernameOrEmail then _ else _).
  destruct (em_findOne (em ctx) key) as [u|]; simpl.
  - split; [|discriminate].
    destruct (argon2_verify (User.password u) password); simpl.
    + destruct (session w); simpl;
        (erewrite made_app; [|unfold record_call; simpl; rewrite <- !app_assoc; reflexivity]);
        eexists; (split; [reflexivity|]); intros c [H|[]]; discriminate H.
    + erewrite made_app; [|unfold record_call; simpl; rewrite <- !app_assoc; reflexivity].
      eexists; (split; [reflexivity|]); intros c [H|[]]; discriminate H.
  - split; [|reflexivity].
    erewrite made_app by reflexivity.
    eexists; (split; [reflexivity|]); intros c [].
Qed.

(** On a request that has a session, [login] answers with a user or with a
    non-empty list of errors, never both and never neither. *)
Lemma login_result_shape (usernameOrEmail password : string) (ctx : MyContext) (w : World) (s : Session) :
  session w = Some s ->
  exists r, fst (login usernameOrEmail password ctx w) = Return r /\
            ((exists u, user r = Some u /\ errors r = None) \/
             (exists e es, errors r = Some (e :: es) /\ user r = None)).
Proof.
  intros Hs. unfold login, verify. run.
  destruct (em_findOne (em ctx) _) as [u|]; simpl.
  - destruct (argon2_verify (User.password u) password); simpl.
    + rewrite Hs. simpl. eexists. split; [reflexivity|]. left. eauto.
    + eexists. split; [reflexivity|]. right. simpl. eauto.
  - eexists. split; [reflexivity|]. right. simpl. eauto.
Qed.

(** *** register *)

(** The object [register] passes to the insert. *)
Lemma register_after_validation (options : UsernamePasswordInput.t) (ctx : MyContext) (w : World) :
  validateRegister options = None ->
  let f := mkInsertFields (UsernamePasswordInput.username options)
                          (UsernamePasswordInput.email options)
                          (argon2_hash (UsernamePasswordInput.password options))
                          (clock w) (clock w) in
  let w' := mkWorld (redis w) (clock w) (session w) (uuids w)
                    (calls w ++ [Argon2Hash (UsernamePasswordInput.password options);
                                 KnexInsert f]) in
  register options ctx w
  = match em_insert (em ctx) f with
    | inr row => (Return (mkUserResponse None (Some row)), w')
    | inl err =>
        match detail err with
        | None => (Throw (TypeError "Cannot read properties of undefined (reading 'includes')"), w')
        | Some d =>
            if includes "already exists" d
            then (Return (mkUserResponse
                            (Some [mkFieldError "username"
                                     "this username has already been taken"]) None), w')
            else (Return (mkUserResponse None None), w')
        end
    end.
Proof.
  intros Hv. cbv zeta. unfold register, hash. rewrite Hv. run.
  unfold record_call; simpl. rewrite <- !app_assoc. simpl.
  destruct (em_insert (em ctx) _) as [err|row]; simpl; [|reflexivity].
  destruct (detail err) as [d|]; simpl; [|reflexivity].
  destruct (includes "already exists" d); reflexivity.
Qed.

(** A unique-constraint violation, on whichever column, is answered with
    the error on field "username"; the driver's error is not rethrown. *)
Lemma register_unique_violation
  (options : UsernamePasswordInput.t) (ctx : MyContext) (w : World) (column value : string) :
  validateRegister options = None ->
  em_insert (em ctx)
    (mkInsertFields (UsernamePasswordInput.username options)
                    (UsernamePasswordInput.email options)
                    (argon2_hash (UsernamePasswordInput.password options))
                    (clock w) (clock w))
  = inl (unique_violation column value) ->
  fst (register options ctx w)
  = Return (mkUserResponse
              (Some [mkFieldError "username" "this username has already been taken"])
              None).
Proof.
  intros Hv Hins. rewrite (register_after_validation _ _ _ Hv). cbv zeta.
  rewrite Hins. destruct (unique_violation_detail column value) as (d & Hd & Hinc).
  rewrite Hd, Hinc. reflexivity.
Qed.


(** The row object itself still has the hash under "password". *)
Lemma row_holds_password (row : User.t) :
  property "password" (row_properties row) = Some (JsString (User.password row)).
Proof. reflexivity. Qed.

(** C6: when the validator finds no violations, that is, returns null, the
    value the test [if (errors)] lets through, [register] does not answer
    with a validation failure: it hashes the password and then attempts the
    insert, with the input's username and e-mail and the hash, and makes no
    other call; errors in its answer can only be the duplicate error of the
    insert. *)
Theorem register_proceeds_on_null
  (options : UsernamePasswordInput.t) (ctx : MyContext) (w : World) :
  validateRegister options = None ->
  made w (snd (register options ctx w))
  = [Argon2Hash (UsernamePasswordInput.password options);
     KnexInsert (mkInsertFields (UsernamePasswordInput.username options)
                                (UsernamePasswordInput.email options)
                                (argon2_hash (UsernamePasswordInput.password options))
                                (clock w) (clock w))] /\
  (forall r, fst (register options ctx w) = Return r ->
             errors r = None \/
             errors r = Some [mkFieldError "username"
                                "this username has already been taken"]).
Proof.
  intros Hv. rewrite (register_after_validation _ _ _ Hv). cbv zeta.
  destruct (em_insert (em ctx) _) as [err|row]; simpl.
  - destruct (detail err) as [d|]; simpl.
    + destruct (includes "already exists" d); simpl;
        (split; [apply made_app; reflexivity|]);
        intros r Hr; injection Hr as <-; simpl; auto.
    + split; [apply made_app; reflexivity|]. intros r Hr. discriminate Hr.
  - split; [apply made_app; reflexivity|].
    intros r Hr; injection Hr as <-; simpl; auto.
Qed.

(** Whatever array the validator returns, empty or not, is handed back as
    [errors] at once: nothing is hashed and nothing is inserted. *)
Lemma register_returns_validator_array
  (options : UsernamePasswordInput.t) (ctx : MyContext) (w : World) (errs : list FieldError) :
  validateRegister options = Some errs ->
  register options ctx w = (Return (mkUserResponse (Some errs) None), w).
Proof.
  intros Hv. unfold register. rewrite Hv. reflexivity.
Qed.

(** *** Further properties of the resolvers *)

Lemma append_cons (c : ascii) (a b : string) :
  String c a +:+ b = String c (a +:+ b).
Proof. reflexivity. Qed.

Lemma prefix_append (n h : string) :
  String.prefix n h = true <-> exists post, h = n +:+ post.
Proof.
  revert h. induction n as [|a n IH]; intros h.
  - destruct h; simpl; (split; [intros _; eexists; reflexivity | reflexivity]).
  - destruct h as [|b h]; simpl.
    + split; [discriminate | intros [post H]; rewrite append_cons in H; discriminate H].
    + destruct (ascii_dec a b) as [->|Hne].
      * rewrite IH. split; intros [post H]; exists post;
          rewrite append_cons in *; congruence.
      * split; [discriminate | intros [post H]; rewrite append_cons in H; congruence].
Qed.

Lemma includes_unfold (needle hay : string) :
  includes needle hay
  = String.prefix needle hay ||
    match hay with
    | EmptyString => false
    | String _ rest => includes needle rest
    end.
Proof. destruct hay; reflexivity. Qed.

(** [hay.includes(needle)] holds exactly when [needle] occurs in [hay]. *)
Lemma includes_occurs (needle hay : string) :
  includes needle hay = true <-> exists pre post, hay = pre +:+ needle +:+ post.
Proof.
  split.
  - induction hay as [|c hay IH]; rewrite includes_unfold; intros H;
      apply orb_true_iff in H; destruct H as [H|H].
    + apply prefix_append in H. destruct H as [post H].
      exists EmptyString, post. exact H.
    + discriminate H.
    + apply prefix_append in H. destruct H as [post H].
      exists EmptyString, post. exact H.
    + destruct (IH H) as (pre & post & E).
      exists (String c pre), post. rewrite append_cons. now rewrite E.
  - intros (pre & post & ->). induction pre as [|c pre IH].
    + change (EmptyString +:+ needle +:+ post) with (needle +:+ post).
      rewrite includes_unfold. apply orb_true_iff. left.
      apply prefix_append. eauto.
    + rewrite append_cons. simpl. rewrite IH. apply orb_true_r.
Qed.

(** **** login *)

(** The runs of [login], by what the store finds, what argon2 answers and
    whether the request has a session. *)
Lemma login_run (usernameOrEmail password : string) (ctx : MyContext) (w : World) :
  let key := if includes "@" usernameOrEmail
             then ByEmail usernameOrEmail else ByUsername usernameOrEmail in
  login usernameOrEmail password ctx w
  = match em_findOne (em ctx) key with
    | None =>
        (Return (mkUserResponse
                   (Some [mkFieldError "usernameOrEmail" "username does not exist"]) None),
         mkWorld (redis w) (clock w) (session w) (uuids w) (calls w ++ [FindOne key]))
    | Some u =>
        let w' := mkWorld (redis w) (clock w) (session w) (uuids w)
                    (calls w ++ [FindOne key; Argon2Verify (User.password u) password]) in
        if argon2_verify (User.password u) password then
          match session w with
          | Some _ =>
              (Return (mkUserResponse None (Some u)),
               set_session (Some (mkSession (Some (User.id u)))) w')
          | None =>
              (Throw (TypeError "Cannot set properties of undefined (setting 'userId')"), w')
          end
        else
          (Return (mkUserResponse
                     (Some [mkFieldError "password" "incorrect password"]) None), w')
    end.
Proof.
  cbv zeta. unfold login, verify. run.
  destruct (em_findOne (em ctx) _) as [u|]; simpl; [|reflexivity].
  unfold record_call, set_session; simpl. rewrite <- !app_assoc; simpl.
  destruct (argon2_verify (User.password u) password); simpl; [|reflexivity].
  destruct (session w); reflexivity.
Qed.

(** The calls [login] makes: the lookup, then argon2 if a user was found. *)
Lemma login_calls (usernameOrEmail password : string) (ctx : MyContext) (w : World) :
  made w (snd (login usernameOrEmail password ctx w))
  = FindOne (if includes "@" usernameOrEmail
             then ByEmail usernameOrEmail else ByUsername usernameOrEmail)
    :: match em_findOne (em ctx) (if includes "@" usernameOrEmail
                                  then ByEmail usernameOrEmail
                                  else ByUsername usernameOrEmail) with
       | Some u => [Argon2Verify (User.password u) password]
       | None => []
       end.
Proof.
  rewrite login_run. cbv zeta.
  destruct (em_findOne (em ctx) _) as [u|].
  - destruct (argon2_verify (User.password u) password); [destruct (session w)|];
      cbn [snd]; apply made_app; reflexivity.
  - cbn [snd]. apply made_app. reflexivity.
Qed.

(** X1: with a session on the request, a user found under the lookup key
    and a password argon2 accepts against the stored hash, [login] answers
    with that user and no errors, stores the user's id in the session, and
    has called the store once and argon2 once; Redis is left alone. *)
Theorem login_success
  (usernameOrEmail password : string) (ctx : MyContext) (w : World) (s : Session) (u : User.t) :
  session w = Some s ->
  em_findOne (em ctx) (if includes "@" usernameOrEmail
                       then ByEmail usernameOrEmail else ByUsername usernameOrEmail)
  = Some u ->
  argon2_verify (User.password u) password = true ->
  let w' := snd (login usernameOrEmail password ctx w) in
  fst (login usernameOrEmail password ctx w) = Return (mkUserResponse None (Some u)) /\
  session w' = Some (mkSession (Some (User.id u))) /\
  made w w' = [FindOne (if includes "@" usernameOrEmail
                        then ByEmail usernameOrEmail else ByUsername usernameOrEmail);
               Argon2Verify (User.password u) password] /\
  redis w' = redis w.
Proof.
  intros Hs Hu Hv. rewrite login_run. cbv zeta. rewrite Hu, Hv, Hs. cbn [fst snd].
  repeat split. apply made_app. reflexivity.
Qed.

(** X2: when the user is found but argon2 rejects the password, [login]
    answers with the single error on field "password", message
    "incorrect password", and the session is left as it was. *)
Theorem login_wrong_password
  (usernameOrEmail password : string) (ctx : MyContext) (w : World) (u : User.t) :
  em_findOne (em ctx) (if includes "@" usernameOrEmail
                       then ByEmail usernameOrEmail else ByUsername usernameOrEmail)
  = Some u ->
  argon2_verify (User.password u) password = false ->
  let w' := snd (login usernameOrEmail password ctx w) in
  fst (login usernameOrEmail password ctx w)
  = Return (mkUserResponse (Some [mkFieldError "password" "incorrect password"]) None) /\
  session w' = session w /\
  redis w' = redis w.
Proof.
  intros Hu Hv. rewrite login_run. cbv zeta. rewrite Hu, Hv. cbn [fst snd].
  repeat split.
Qed.

(** X3: [login] changes the session only when the store found a user and
    argon2 accepted the password against that user's hash, and then the
    session holds exactly that user's id. *)
Theorem login_session_only_on_verified
  (usernameOrEmail password : string) (ctx : MyContext) (w : World) :
  session (snd (login usernameOrEmail password ctx w)) <> session w ->
  exists u,
    em_findOne (em ctx) (if includes "@" usernameOrEmail
                         then ByEmail usernameOrEmail else ByUsername usernameOrEmail)
    = Some u /\
    argon2_verify (User.password u) password = true /\
    session (snd (login usernameOrEmail password ctx w))
    = Some (mkSession (Some (User.id u))).
Proof.
  rewrite login_run. cbv zeta.
  destruct (em_findOne (em ctx) _) as [u|]; [|intros H; now destruct H].
  destruct (argon2_verify (User.password u) password) eqn:Hv; [|intros H; now destruct H].
  destruct (session w) eqn:Hs; cbn [snd]; intros H.
  - exists u. split; [reflexivity|]. split; [exact Hv | reflexivity].
  - destruct H. reflexivity.
Qed.

(** X4: after a successful [login], [me] on the same request returns the
    user that logged in, provided the user's id is not 0 and the store
    still finds the user by that id. *)
Theorem login_then_me
  (usernameOrEmail password : string) (ctx : MyContext) (w : World) (s : Session) (u : User.t) :
  session w = Some s ->
  em_findOne (em ctx) (if includes "@" usernameOrEmail
                       then ByEmail usernameOrEmail else ByUsername usernameOrEmail)
  = Some u ->
  argon2_verify (User.password u) password = true ->
  User.id u <> 0 ->
  em_findOne (em ctx) (ById (User.id u)) = Some u ->
  fst (me ctx (snd (login usernameOrEmail password ctx w))) = Return (Some u).
Proof.
  intros Hs Hu Hv Hid Hfind. rewrite login_run. cbv zeta. rewrite Hu, Hv, Hs. cbn [snd].
  erewrite me_result by reflexivity. cbn [userId].
  destruct (Z.eqb_spec (User.id u) 0); [contradiction | now rewrite Hfind].
Qed.

(** X5: on a request without a session, [login] with credentials that
    verify throws when it comes to store the user's id, after the store
    and argon2 have been called; no user is returned. *)
Theorem login_without_session_throws
  (usernameOrEmail password : string) (ctx : MyContext) (w : World) (u : User.t) :
  session w = None ->
  em_findOne (em ctx) (if includes "@" usernameOrEmail
                       then ByEmail usernameOrEmail else ByUsername usernameOrEmail)
  = Some u ->
  argon2_verify (User.password u) password = true ->
  let w' := snd (login usernameOrEmail password ctx w) in
  fst (login usernameOrEmail password ctx w)
  = Throw (TypeError "Cannot set properties of undefined (setting 'userId')") /\
  made w w' = [FindOne (if includes "@" usernameOrEmail
                        then ByEmail usernameOrEmail else ByUsername usernameOrEmail);
               Argon2Verify (User.password u) password] /\
  session w' = None.
Proof.
  intros Hs Hu Hv. rewrite login_run. cbv zeta. rewrite Hu, Hv, Hs. cbn [fst snd].
  repeat split. apply made_app. reflexivity.
Qed.

(** X6: the first call of [login] is the store lookup, and it is by e-mail
    exactly when the character '@' occurs somewhere in the identifier, by
    username exactly when it occurs nowhere. *)
Theorem login_by_email_iff_at_occurs
  (usernameOrEmail password : string) (ctx : MyContext) (w : World) :
  let first := hd_error (made w (snd (login usernameOrEmail password ctx w))) in
  (first = Some (FindOne (ByEmail usernameOrEmail))
   <-> exists pre post, usernameOrEmail = pre +:+ "@" +:+ post) /\
  (first = Some (FindOne (ByUsername usernameOrEmail))
   <-> ~ exists pre post, usernameOrEmail = pre +:+ "@" +:+ post).
Proof.
  cbv zeta. rewrite login_calls. cbn [hd_error].
  rewrite <- includes_occurs.
  destruct (includes "@" usernameOrEmail); split; split; intros H;
    try reflexivity; try discriminate; try congruence.
Qed.

(** **** me *)

Lemma made_same (w : World) : made w w = [].
Proof. apply made_app. symmetry. apply app_nil_r. Qed.

Lemma me_run (ctx : MyContext) (w : World) :
  me ctx w
  = match session w with
    | None =>
        (Throw (TypeError "Cannot read properties of undefined (reading 'userId')"), w)
    | Some s =>
        match userId s with
        | Some i =>
            if i =? 0 then (Return None, w)
            else (Return (em_findOne (em ctx) (ById i)), record_call (FindOne (ById i)) w)
        | None => (Return None, w)
        end
    end.
Proof.
  unfold me. run. destruct (session w) as [s|]; simpl; [|reflexivity].
  destruct (userId s) as [i|]; simpl; [|reflexivity].
  destruct (i =? 0); reflexivity.
Qed.

(** X7: [me] only reads: Redis, the session, the uuid counter and the clock
    are as before, and it calls nothing, or the store once, by the id held
    in the session, which is then not 0. *)
Theorem me_only_reads (ctx : MyContext) (w : World) :
  let w' := snd (me ctx w) in
  redis w' = redis w /\ session w' = session w /\
  uuids w' = uuids w /\ clock w' = clock w /\
  (made w w' = [] \/
   exists i, session w = Some (mkSession (Some i)) /\ i <> 0 /\
             made w w' = [FindOne (ById i)]).
Proof.
  cbv zeta. rewrite me_run.
  destruct (session w) as [[[i|]]|] eqn:Hs; cbn [userId snd].
  - destruct (Z.eqb_spec i 0); cbn [snd].
    + repeat split; try exact Hs. left. apply made_same.
    + repeat split; try exact Hs. right. exists i.
      split; [reflexivity|]. split; [assumption|]. apply made_app. reflexivity.
  - repeat split; try exact Hs. left. apply made_same.
  - repeat split; try exact Hs. left. apply made_same.
Qed.

(** X8: [me] throws exactly when the request has no session; with a
    session it always returns. *)
Theorem me_throws_iff_no_session (ctx : MyContext) (w : World) :
  (exists e, fst (me ctx w) = Throw e) <-> session w = None.
Proof.
  rewrite me_run.
  destruct (session w) as [[[i|]]|]; cbn [userId].
  - destruct (i =? 0); cbn [fst]; split; [intros [e H]| |intros [e H]|]; discriminate.
  - cbn [fst]; split; [intros [e H]|]; discriminate.
  - cbn [fst]; split; [reflexivity | eauto].
Qed.

(** **** register *)

Lemma register_run (options : UsernamePasswordInput.t) (ctx : MyContext) (w : World) :
  register options ctx w
  = match validateRegister options with
    | Some errs => (Return (mkUserResponse (Some errs) None), w)
    | None =>
        let w' := mkWorld (redis w) (clock w) (session w) (uuids w)
                    (calls w ++ [Argon2Hash (UsernamePasswordInput.password options);
                                 KnexInsert (inserted_fields options w)]) in
        match em_insert (em ctx) (inserted_fields options w) with
        | inr row => (Return (mkUserResponse None (Some row)), w')
        | inl err =>
            match detail err with
            | None =>
                (Throw (TypeError "Cannot read properties of undefined (reading 'includes')"), w')
            | Some d =>
                if includes "already exists" d
                then (Return (mkUserResponse
                                (Some [mkFieldError "username"
                                         "this username has already been taken"]) None), w')
                else (Return (mkUserResponse None None), w')
            end
        end
    end.
Proof.
  destruct (validateRegister options) as [errs|] eqn:Hv.
  - apply register_returns_validator_array. exact Hv.
  - apply register_after_validation. exact Hv.
Qed.

Ltac register_cases options ctx w :=
  rewrite ?register_run; cbv zeta;
  destruct (validateRegister options) as [errs0|] eqn:Hv;
  [| destruct (em_insert (em ctx) (inserted_fields options w)) as [err0|row0] eqn:Hins;
     [destruct (detail err0) as [d0|] eqn:Hd;
      [destruct (includes "already exists" d0) eqn:Hinc|]|]];
  cbn [fst snd].

(** X9: [register] throws exactly when the validator returned null, the
    insert was rejected, and the error it was rejected with has no detail. *)
Theorem register_throws_iff (options : UsernamePasswordInput.t) (ctx : MyContext) (w : World) :
  (exists e, fst (register options ctx w) = Throw e)
  <-> validateRegister options = None /\
      exists err, em_insert (em ctx) (inserted_fields options w) = inl err /\
                  detail err = None.
Proof.
  register_cases options ctx w; split;
    try (intros [e H]; discriminate H);
    try (intros [H _]; discriminate H);
    try (intros (_ & err' & H & Hd'); congruence).
  - intros _. eauto.
  - eauto.
Qed.

(** X10: [register] answers with neither a user nor errors exactly when the
    validator returned null and the insert was rejected with an error whose
    detail does not contain "already exists". *)
Theorem register_empty_answer_iff
  (options : UsernamePasswordInput.t) (ctx : MyContext) (w : World) :
  fst (register options ctx w) = Return (mkUserResponse None None)
  <-> validateRegister options = None /\
      exists err d, em_insert (em ctx) (inserted_fields options w) = inl err /\
                    detail err = Some d /\
                    includes "already exists" d = false.
Proof.
  register_cases options ctx w; split;
    try discriminate;
    try (intros [H _]; discriminate H);
    try (intros (_ & err' & d' & H & Hd' & Hinc'); congruence).
  - intros _. eauto 6.
Qed.

(** X11: [register] leaves Redis, the session, the uuid counter and the
    clock as they were: it logs nobody in. It calls nothing when the
    validator returned an array, and otherwise argon2 once and then the
    insert once, with the input's username and e-mail, the hash of the
    password and the current time. *)
Theorem register_frame (options : UsernamePasswordInput.t) (ctx : MyContext) (w : World) :
  let w' := snd (register options ctx w) in
  redis w' = redis w /\ session w' = session w /\
  uuids w' = uuids w /\ clock w' = clock w /\
  made w w'
  = match validateRegister options with
    | Some _ => []
    | None => [Argon2Hash (UsernamePasswordInput.password options);
               KnexInsert (mkInsertFields
                             (UsernamePasswordInput.username options)
                             (UsernamePasswordInput.email options)
                             (argon2_hash (UsernamePasswordInput.password options))
                             (clock w) (clock w))]
    end.
Proof.
  register_cases options ctx w; repeat split;
    try apply made_same; apply made_app; reflexivity.
Qed.

(** X12: [register] answers with a user exactly when the validator returned
    null and the insert returned that row. *)
Theorem register_user_iff_inserted
  (options : UsernamePasswordInput.t) (ctx : MyContext) (w : World) (row : User.t) :
  (exists r, fst (register options ctx w) = Return r /\ user r = Some row)
  <-> validateRegister options = None /\
      em_insert (em ctx) (inserted_fields options w) = inr row.
Proof.
  register_cases options ctx w; split;
    try (intros (r & H & Hr); inversion H; subst r; simpl in Hr; congruence);
    try (intros [H1 H2]; congruence).
  - intros (r & H & Hr). inversion H; subst r; simpl in Hr. split; congruence.
  - intros [_ H]. inversion H; subst. eauto.
Qed.

(** X13: once the validator has returned null, [register] answers with the
    error "this username has already been taken" on field "username"
    exactly when the insert was rejected with an error whose detail
    contains "already exists", whatever else the detail says. *)
Theorem register_taken_iff
  (options : UsernamePasswordInput.t) (ctx : MyContext) (w : World) :
  validateRegister options = None ->
  (fst (register options ctx w)
   = Return (mkUserResponse
               (Some [mkFieldError "username" "this username has already been taken"])
               None)
   <-> exists err d, em_insert (em ctx) (inserted_fields options w) = inl err /\
                     detail err = Some d /\
                     includes "already exists" d = true).
Proof.
  intros Hnull. register_cases options ctx w; split;
    try discriminate;
    try (intros (err' & d' & H & Hd' & Hinc'); congruence).
  - intros _. eauto 6.
Qed.

(** **** forgotPassword *)

(** X14: [forgotPassword] returns true exactly when the e-mail is not
    registered, and throws the ReferenceError of the unresolved [sendEmail]
    exactly when it is: the caller can tell the two apart. *)
Theorem forgotPassword_returns_iff_unregistered
  (email : string) (ctx : MyContext) (w : World) :
  (fst (forgotPassword email ctx w) = Return true
   <-> em_findOne (em ctx) (ByEmail email) = None) /\
  (fst (forgotPassword email ctx w) = Throw (ReferenceError "sendEmail is not defined")
   <-> is_Some (em_findOne (em ctx) (ByEmail email))).
Proof.
  destruct (em_findOne (em ctx) (ByEmail email)) as [u|] eqn:Hu.
  - rewrite (forgotPassword_registered _ _ _ _ Hu). cbn [fst].
    split; split; try discriminate; eauto.
  - rewrite (forgotPassword_unregistered _ _ _ Hu). cbn [fst].
    split; split; try discriminate; try reflexivity.
    intros [x Hx]. discriminate Hx.
Qed.

(** X15: [forgotPassword] leaves the session and the clock as they were,
    changes no Redis key other than the one of the token it draws, and
    draws a token (advancing the uuid source by one) only when the e-mail
    is registered. *)
Theorem forgotPassword_frame (email : string) (ctx : MyContext) (w : World) :
  let w' := snd (forgotPassword email ctx w) in
  session w' = session w /\ clock w' = clock w /\
  uuids w' = match em_findOne (em ctx) (ByEmail email) with
             | Some _ => S (uuids w)
             | None => uuids w
             end /\
  (forall k, k <> FORGET_PASSWORD_PREFIX +:+ v4 (uuids w) ->
             redis w' !! k = redis w !! k).
Proof.
  cbv zeta. destruct (em_findOne (em ctx) (ByEmail email)) as [u|] eqn:Hu.
  - rewrite (forgotPassword_registered _ _ _ _ Hu). cbn [snd session clock uuids redis].
    repeat split. intros k Hk. apply lookup_insert_ne. congruence.
  - rewrite (forgotPassword_unregistered _ _ _ Hu). repeat split.
Qed.

(** X16: [forgotPassword] does not look at what Redis already holds under
    the key. If the uuid source yields the same token for two requests, for
    two registered e-mails, the second request replaces the first entry:
    the token then resolves to the second user's id, with the second
    request's expiry. *)
Theorem forgotPassword_collision_overwrites
  (email1 email2 : string) (ctx : MyContext) (w : World) (u1 u2 : User.t) (dt : Z) :
  em_findOne (em ctx) (ByEmail email1) = Some u1 ->
  em_findOne (em ctx) (ByEmail email2) = Some u2 ->
  v4 (uuids w) = v4 (S (uuids w)) ->
  let w1 := snd (forgotPassword email1 ctx w) in
  let w2 := snd (forgotPassword email2 ctx (advance dt w1)) in
  let key := FORGET_PASSWORD_PREFIX +:+ v4 (uuids w) in
  redis w1 !! key = Some (mkRedisEntry (User.id u1) (clock w + 259200000 * 1000)) /\
  redis w2 !! key = Some (mkRedisEntry (User.id u2) (clock w + dt + 259200000 * 1000)) /\
  (forall t, t <= clock w + dt + 259200000 * 1000 ->
             redis_get (redis w2) t key = Some (User.id u2)).
Proof.
  intros H1 H2 Hsame. cbv zeta.
  rewrite (forgotPassword_registered _ _ _ _ H1). cbn [snd].
  rewrite (forgotPassword_registered _ _ _ _ H2). cbn [snd redis].
  unfold advance, set_clock. cbn [uuids clock redis]. rewrite <- Hsame.
  assert (Hk : (<[FORGET_PASSWORD_PREFIX +:+ v4 (uuids w) :=
                    mkRedisEntry (User.id u2) (clock w + dt + 259200000 * 1000)]>
                  (<[FORGET_PASSWORD_PREFIX +:+ v4 (uuids w) :=
                       mkRedisEntry (User.id u1) (clock w + 259200000 * 1000)]> (redis w)))
               !! (FORGET_PASSWORD_PREFIX +:+ v4 (uuids w))
               = Some (mkRedisEntry (User.id u2) (clock w + dt + 259200000 * 1000)))
    by apply lookup_insert_eq.
  split; [apply lookup_insert_eq|]. split; [exact Hk|].
  intros t Ht. exact (redis_get_alive _ _ _ _ Hk Ht).
Qed.

(** **** logout *)

(** X17: [logout] throws exactly when the request has no session, and then
    nothing has been called: no destroy, no cookie cleared. It never
    touches Redis. *)
Theorem logout_throws_iff_no_session (ctx : MyContext) (w : World) :
  let w' := snd (logout ctx w) in
  ((exists e, fst (logout ctx w) = Throw e) <-> session w = None) /\
  ((exists e, fst (logout ctx w) = Throw e) -> made w w' = []) /\
  redis w' = redis w.
Proof.
  cbv zeta. unfold logout. run.
  destruct (session w) as [s|]; simpl.
  - destruct (store_destroy_error ctx) as [err|]; simpl;
      (split; [split; [intros [e H]|]; discriminate|]);
      (split; [intros [e H]; discriminate H | reflexivity]).
  - split; [split; eauto|]. split; [intros _; apply made_same | reflexivity].
Qed.

(** **** Further runs *)

(** X18: [login] calls argon2 exactly when the store found a user, and
    then once, with that user's stored hash and the password as typed;
    for an unknown identifier the only call is the lookup. *)
Theorem login_verifies_only_found_users
  (usernameOrEmail password : string) (ctx : MyContext) (w : World) :
  let key := if includes "@" usernameOrEmail
             then ByEmail usernameOrEmail else ByUsername usernameOrEmail in
  forall hashed plain,
    In (Argon2Verify hashed plain) (made w (snd (login usernameOrEmail password ctx w)))
    <-> exists u, em_findOne (em ctx) key = Some u /\
                  hashed = User.password u /\ plain = password.
Proof.
  cbv zeta. intros hashed plain. rewrite login_calls.
  destruct (em_findOne (em ctx) _) as [u|]; simpl; split.
  - intros [H|[H|[]]]; [discriminate H|]. injection H as <- <-. eauto.
  - intros (u' & Hu & -> & ->). injection Hu as <-. auto.
  - intros [H|[]]. discriminate H.
  - intros (u' & Hu & _). discriminate Hu.
Qed.

(** X19: for a registered e-mail [forgotPassword] makes three calls in this
    order: the lookup by e-mail, the draw of the token, the Redis SET of
    the user's id under prefix and token with mode ex and 259200000; then
    it throws, with the token left in Redis, where it resolves to the
    user's id up to the expiry the code sets. *)
Theorem forgotPassword_calls_before_throw
  (email : string) (ctx : MyContext) (w : World) (u : User.t) :
  em_findOne (em ctx) (ByEmail email) = Some u ->
  let w' := snd (forgotPassword email ctx w) in
  made w w'
  = [FindOne (ByEmail email);
     UuidV4 (v4 (uuids w));
     RedisSet (FORGET_PASSWORD_PREFIX +:+ v4 (uuids w)) (User.id u) EX 259200000] /\
  fst (forgotPassword email ctx w) = Throw (ReferenceError "sendEmail is not defined") /\
  (forall t, t <= clock w + 259200000 * 1000 ->
             redis_get (redis w') t (FORGET_PASSWORD_PREFIX +:+ v4 (uuids w))
             = Some (User.id u)).
Proof.
  intros Hu. cbv zeta. rewrite (forgotPassword_registered _ _ _ _ Hu). cbn [fst snd redis].
  split; [apply made_app; reflexivity|]. split; [reflexivity|].
  intros t Ht.
  apply (redis_get_alive _ _ (mkRedisEntry (User.id u) (clock w + 259200000 * 1000)));
    [apply lookup_insert_eq | exact Ht].
Qed.

Lemma find_after_append (f : User.t -> bool) (table : list User.t) (row : User.t) :
  existsb f table = false -> f row = true -> find f (table ++ [row]) = Some row.
Proof.
  intros Hnone Hrow. induction table as [|x table IH]; simpl in *.
  - now rewrite Hrow.
  - apply orb_false_iff in Hnone. destruct Hnone as [Hx Hrest].
    rewrite Hx. auto.
Qed.

(** X20: over a table with unique usernames and e-mails, a registration
    that answered with a user can be followed by a login: once the row is
    in the table, [login] with the registered password answers with that
    row both for the username, if it has no '@', and for the e-mail, if it
    has one, provided argon2 accepts the password against its own hash. *)
Theorem register_then_login
  (options : UsernamePasswordInput.t) (table : list User.t) (next_id : Z)
  (d1 d2 : option string) (w w2 : World) (s : Session) (row : User.t) :
  fst (register options (mkContext (pg_em table next_id) d1) w)
  = Return (mkUserResponse None (Some row)) ->
  argon2_verify (argon2_hash (UsernamePasswordInput.password options))
                (UsernamePasswordInput.password options) = true ->
  includes "@" (UsernamePasswordInput.username options) = false ->
  includes "@" (UsernamePasswordInput.email options) = true ->
  session w2 = Some s ->
  let ctx2 := mkContext (pg_em (table ++ [row]) (next_id + 1)) d2 in
  fst (login (UsernamePasswordInput.username options)
             (UsernamePasswordInput.password options) ctx2 w2)
  = Return (mkUserResponse None (Some row)) /\
  fst (login (UsernamePasswordInput.email options)
             (UsernamePasswordInput.password options) ctx2 w2)
  = Return (mkUserResponse None (Some row)).
Proof.
  intros Hreg Hverify Hname Hmail Hs. cbv zeta.
  rewrite register_run in Hreg. cbv zeta in Hreg.
  destruct (validateRegister options) as [errs|]; [discriminate Hreg|].
  cbn [em em_insert pg_em] in Hreg. unfold pg_insert in Hreg.
  cbn [inserted_fields ins_username ins_email ins_password ins_created_at
       ins_updated_at] in Hreg.
  destruct (existsb (matches (ByUsername (UsernamePasswordInput.username options))) table)
    eqn:Hu.
  { destruct (unique_violation_detail "username" (UsernamePasswordInput.username options))
      as (d & Hd & Hinc).
    rewrite Hd, Hinc in Hreg. discriminate Hreg. }
  destruct (existsb (matches (ByEmail (UsernamePasswordInput.email options))) table)
    eqn:He.
  { destruct (unique_violation_detail "email" (UsernamePasswordInput.email options))
      as (d & Hd & Hinc).
    rewrite Hd, Hinc in Hreg. discriminate Hreg. }
  cbn [fst] in Hreg. injection Hreg as <-.
  split; rewrite login_run; cbv zeta; [rewrite Hname | rewrite Hmail];
    cbn [em em_findOne pg_em]; unfold pg_findOne;
    (rewrite find_after_append;
     [cbn [User.password]; rewrite Hverify, Hs; reflexivity
     | assumption
     | simpl; apply String.eqb_refl]).
Qed.

End UserResolver.


(** ** The resolver on sample requests *)

(** C1: a registration whose e-mail is already taken (the username is new).
    The store reports the violation on column [email]; [register] answers
    with the error on field "username". *)
Theorem register_duplicate_email_blames_username :
  em_insert (em ctx_alice)
    (mkInsertFields "bob" "alice@x.com" (sample_hash "secret1") 0 0)
  = inl (unique_violation "email" "alice@x.com") /\
  fst (register validateRegister_nullable sample_hash
         options_bob_with_alices_email ctx_alice fresh_world)
  = Return (mkUserResponse
              (Some [mkFieldError "username" "this username has already been taken"])
              None).
Proof. split; vm_compute; reflexivity. Qed.

(** C2: the token stored for a registered e-mail at instant 0 expires at
    259,200,000 seconds, not milliseconds: it still resolves to the user's
    id four days later. *)
Theorem reset_token_resolves_after_four_days :
  let w' := snd (forgotPassword "reset-" sample_v4 "alice@x.com" ctx_alice fresh_world) in
  let key := "reset-" +:+ sample_v4 0 in
  redis w' !! key = Some (mkRedisEntry (User.id alice) (three_days_ms * 1000)) /\
  three_days_ms < four_days_ms /\
  redis_get (redis w') four_days_ms key = Some (User.id alice).
Proof. cbv zeta. repeat split; vm_compute; reflexivity. Qed.

(** C3: a registration whose insert is rejected for a reason other than a
    duplicate: [register] answers with neither a user nor errors. *)
Theorem register_swallowed_error_answers_nothing :
  fst (register validateRegister_nullable sample_hash options_bob ctx_rejecting fresh_world)
  = Return (mkUserResponse None None).
Proof. vm_compute. reflexivity. Qed.

(** When the rejected insert's error has no detail, the catch block itself
    throws. *)
Lemma register_error_without_detail_throws :
  fst (register validateRegister_nullable sample_hash options_bob ctx_rejecting_plain fresh_world)
  = Throw (TypeError "Cannot read properties of undefined (reading 'includes')").
Proof. vm_compute. reflexivity. Qed.

(** C4, as stated, fails: for an unknown username the message is
    "username does not exist", which is not the string "does not exist". *)
Lemma login_unknown_message_is_longer :
  em_findOne (em ctx_empty) (ByUsername "nobody") = None /\
  fst (login sample_verify "nobody" "secret1" ctx_empty fresh_world)
  = Return (mkUserResponse
              (Some [mkFieldError "usernameOrEmail" "username does not exist"]) None) /\
  fst (login sample_verify "nobody" "secret1" ctx_empty fresh_world)
  <> Return (mkUserResponse
               (Some [mkFieldError "usernameOrEmail" "does not exist"]) None).
Proof.
  split; [reflexivity|]. split; [vm_compute; reflexivity|].
  vm_compute. intros H. discriminate H.
Qed.


(** C7: a reset request for the registered e-mail of [alice]. The token is
    drawn and stored, then the call of [sendEmail] throws: [forgotPassword]
    does not return true and nothing is sent. For an e-mail that is not
    registered it returns true. *)
Theorem forgotPassword_registered_email_throws :
  em_findOne (em ctx_alice) (ByEmail "alice@x.com") = Some alice /\
  fst (forgotPassword "reset-" sample_v4 "alice@x.com" ctx_alice fresh_world)
  = Throw (ReferenceError "sendEmail is not defined") /\
  made fresh_world
    (snd (forgotPassword "reset-" sample_v4 "alice@x.com" ctx_alice fresh_world))
  = [FindOne (ByEmail "alice@x.com");
     UuidV4 (sample_v4 0);
     RedisSet ("reset-" +:+ sample_v4 0) (User.id alice) EX 259200000] /\
  em_findOne (em ctx_alice) (ByEmail "bob@x.com") = None /\
  fst (forgotPassword "reset-" sample_v4 "bob@x.com" ctx_alice fresh_world)
  = Return true.
Proof. repeat split; vm_compute; reflexivity. Qed.

(** C10, as stated, fails: when the uuid source yields the same token for
    both requests, the second request writes to the key of the first and
    replaces its entry. *)
Lemma forgotPassword_repeated_token_replaces_entry :
  let w1 := snd (forgotPassword "reset-" stuck_v4 "alice@x.com" ctx_alice fresh_world) in
  let w2 := snd (forgotPassword "reset-" stuck_v4 "alice@x.com" ctx_alice
                   (advance 1000 w1)) in
  let k1 := "reset-" +:+ stuck_v4 0 in
  let k2 := "reset-" +:+ stuck_v4 1 in
  em_findOne (em ctx_alice) (ByEmail "alice@x.com") = Some alice /\
  k1 = k2 /\
  redis w1 !! k1 = Some (mkRedisEntry 1 259200000000) /\
  redis w2 !! k1 = Some (mkRedisEntry 1 259200001000) /\
  redis w2 !! k1 <> redis w1 !! k1.
Proof.
  cbv zeta. split; [reflexivity|]. split; [reflexivity|].
  split; [vm_compute; reflexivity|]. split; [vm_compute; reflexivity|].
  vm_compute. intros H. discriminate H.
Qed.

(** C9, as stated, fails: the session holds userId 0 and the store has the
    user with id 0, yet [me] returns null. *)
Lemma me_zero_user_id_is_absent :
  session (world_of_session (mkSession (Some 0))) = Some (mkSession (Some 0)) /\
  em_findOne (em ctx_zero) (ById 0) = Some zero /\
  fst (me ctx_zero (world_of_session (mkSession (Some 0)))) = Return None /\
  fst (me ctx_zero (world_of_session (mkSession (Some 0)))) <> Return (Some zero).
Proof.
  repeat split; try (vm_compute; reflexivity).
  vm_compute. intros H. discriminate H.
Qed.

(** ** The theorems at sample requests *)


Lemma register_proceeds_on_null_sample :
  violations options_bob = [] /\
  validateRegister_nullable options_bob = None /\
  made fresh_world
    (snd (register validateRegister_nullable sample_hash options_bob ctx_alice fresh_world))
  = [Argon2Hash "secret1";
     KnexInsert (mkInsertFields "bob" "bob@x.com" (sample_hash "secret1") 0 0)].
Proof.
  split; [reflexivity|]. split; [reflexivity|].
  apply (register_proceeds_on_null validateRegister_nullable sample_hash
           options_bob ctx_alice fresh_world).
  reflexivity.
Defined.

Lemma logout_always_clears_cookie_sample :
  session fresh_world = Some (mkSession None) /\
  In (ClearCookie "qid") (made fresh_world (snd (logout "qid" ctx_destroy_fails fresh_world))) /\
  fst (logout "qid" ctx_destroy_fails fresh_world) = Return false.
Proof.
  split; [reflexivity|].
  pose proof (logout_always_clears_cookie "qid" ctx_destroy_fails fresh_world
                (mkSession None) eq_refl) as H.
  cbv zeta in H. destruct H as (Hcookie & Hresult & _).
  split; [exact Hcookie | exact Hresult].
Defined.

Lemma me_returns_user_of_truthy_id_sample :
  session (world_of_session (mkSession (Some 1))) = Some (mkSession (Some 1)) /\
  fst (me ctx_alice (world_of_session (mkSession (Some 1)))) = Return (Some alice).
Proof.
  split; [reflexivity|].
  apply (me_returns_user_of_truthy_id ctx_alice
           (world_of_session (mkSession (Some 1))) (mkSession (Some 1)) eq_refl)
    with (i := 1).
  - reflexivity.
  - lia.
  - reflexivity.
Defined.

Lemma login_unknown_identifier_sample :
  em_findOne (em ctx_alice) (ByEmail "bob@x.com") = None /\
  login sample_verify "bob@x.com" "secret1" ctx_alice fresh_world
  = (Return (mkUserResponse
               (Some [mkFieldError "usernameOrEmail" "username does not exist"])
               None),
     record_call (FindOne (ByEmail "bob@x.com")) fresh_world).
Proof.
  split; [reflexivity|].
  apply (login_unknown_identifier sample_verify "bob@x.com" "secret1" ctx_alice fresh_world).
  reflexivity.
Defined.

Lemma forgotPassword_twice_keeps_both_sample :
  em_findOne (em ctx_alice) (ByEmail "alice@x.com") = Some alice /\
  sample_v4 0 <> sample_v4 1 /\
  let w1 := snd (forgotPassword "reset-" sample_v4 "alice@x.com" ctx_alice fresh_world) in
  let w2 := snd (forgotPassword "reset-" sample_v4 "alice@x.com" ctx_alice (advance 1000 w1)) in
  redis_get (redis w2) 5000 ("reset-" +:+ sample_v4 0) = Some 1 /\
  redis_get (redis w2) 5000 ("reset-" +:+ sample_v4 1) = Some 1.
Proof.
  assert (Hu : em_findOne (em ctx_alice) (ByEmail "alice@x.com") = Some alice)
    by reflexivity.
  assert (Hfresh : sample_v4 0 <> sample_v4 1) by (intros H; discriminate H).
  split; [exact Hu|]. split; [exact Hfresh|].
  pose proof (forgotPassword_twice_keeps_both "reset-" sample_v4 "alice@x.com"
                ctx_alice fresh_world alice 1000 Hu Hfresh) as H.
  cbv zeta in H. destruct H as (_ & _ & _ & _ & H1 & _ & H2 & _).
  cbv zeta. split; [apply H1 | apply H2]; simpl; lia.
Defined.

Lemma login_success_sample :
  session fresh_world = Some (mkSession None) /\
  em_findOne (em ctx_alice) (ByUsername "alice") = Some alice /\
  sample_verify (User.password alice) "secret1" = true /\
  fst (login sample_verify "alice" "secret1" ctx_alice fresh_world)
  = Return (mkUserResponse None (Some alice)) /\
  session (snd (login sample_verify "alice" "secret1" ctx_alice fresh_world))
  = Some (mkSession (Some 1)).
Proof.
  pose proof (login_success sample_verify "alice" "secret1" ctx_alice fresh_world
                (mkSession None) alice eq_refl eq_refl eq_refl) as H.
  cbv zeta in H. destruct H as (Hr & Hs & _).
  split; [reflexivity|]. split; [reflexivity|]. split; [reflexivity|].
  split; [exact Hr | exact Hs].
Defined.

Lemma login_wrong_password_sample :
  em_findOne (em ctx_alice) (ByEmail "alice@x.com") = Some alice /\
  sample_verify (User.password alice) "wrong" = false /\
  fst (login sample_verify "alice@x.com" "wrong" ctx_alice fresh_world)
  = Return (mkUserResponse (Some [mkFieldError "password" "incorrect password"]) None) /\
  session (snd (login sample_verify "alice@x.com" "wrong" ctx_alice fresh_world))
  = session fresh_world.
Proof.
  pose proof (login_wrong_password sample_verify "alice@x.com" "wrong" ctx_alice
                fresh_world alice eq_refl eq_refl) as H.
  cbv zeta in H. destruct H as (Hr & Hs & _).
  split; [reflexivity|]. split; [reflexivity|].
  split; [exact Hr | exact Hs].
Defined.

Lemma login_session_only_on_verified_sample :
  session (snd (login sample_verify "alice" "secret1" ctx_alice fresh_world))
  <> session fresh_world /\
  exists u,
    em_findOne (em ctx_alice) (ByUsername "alice") = Some u /\
    sample_verify (User.password u) "secret1" = true /\
    session (snd (login sample_verify "alice" "secret1" ctx_alice fresh_world))
    = Some (mkSession (Some (User.id u))).
Proof.
  assert (Hchanged : session (snd (login sample_verify "alice" "secret1" ctx_alice fresh_world))
                     <> session fresh_world)
    by (vm_compute; intros H; discriminate H).
  split; [exact Hchanged|].
  exact (login_session_only_on_verified sample_verify "alice" "secret1" ctx_alice
           fresh_world Hchanged).
Defined.

Lemma login_then_me_sample :
  User.id alice <> 0 /\
  em_findOne (em ctx_alice) (ById (User.id alice)) = Some alice /\
  fst (me ctx_alice (snd (login sample_verify "alice" "secret1" ctx_alice fresh_world)))
  = Return (Some alice).
Proof.
  assert (Hid : User.id alice <> 0) by (simpl; lia).
  split; [exact Hid|]. split; [reflexivity|].
  exact (login_then_me sample_verify "alice" "secret1" ctx_alice fresh_world
           (mkSession None) alice eq_refl eq_refl eq_refl Hid eq_refl).
Defined.

Lemma login_without_session_throws_sample :
  session world_without_session = None /\
  fst (login sample_verify "alice" "secret1" ctx_alice world_without_session)
  = Throw (TypeError "Cannot set properties of undefined (setting 'userId')").
Proof.
  split; [reflexivity|].
  pose proof (login_without_session_throws sample_verify "alice" "secret1" ctx_alice
                world_without_session alice eq_refl eq_refl eq_refl) as H.
  cbv zeta in H. exact (proj1 H).
Defined.

Lemma register_taken_iff_sample :
  validateRegister_nullable options_bob_with_alices_email = None /\
  (fst (register validateRegister_nullable sample_hash
          options_bob_with_alices_email ctx_alice fresh_world)
   = Return (mkUserResponse
               (Some [mkFieldError "username" "this username has already been taken"])
               None)
   <-> exists err d,
         em_insert (em ctx_alice)
           (inserted_fields sample_hash options_bob_with_alices_email fresh_world)
         = inl err /\
         detail err = Some d /\
         includes "already exists" d = true).
Proof.
  split; [reflexivity|].
  apply (register_taken_iff validateRegister_nullable sample_hash
           options_bob_with_alices_email ctx_alice fresh_world).
  reflexivity.
Defined.

Lemma forgotPassword_collision_overwrites_sample :
  em_findOne (em ctx_two) (ByEmail "alice@x.com") = Some alice /\
  em_findOne (em ctx_two) (ByEmail "zero@x.com") = Some zero /\
  stuck_v4 0 = stuck_v4 1 /\
  redis_get
    (redis (snd (forgotPassword "reset-" stuck_v4 "zero@x.com" ctx_two
                   (advance 1000
                      (snd (forgotPassword "reset-" stuck_v4 "alice@x.com" ctx_two
                              fresh_world))))))
    5000 ("reset-" +:+ stuck_v4 0)
  = Some (User.id zero).
Proof.
  split; [reflexivity|]. split; [reflexivity|]. split; [reflexivity|].
  pose proof (forgotPassword_collision_overwrites "reset-" stuck_v4
                "alice@x.com" "zero@x.com" ctx_two fresh_world alice zero 1000
                eq_refl eq_refl eq_refl) as H.
  cbv zeta in H. destruct H as (_ & _ & H). apply H. simpl. lia.
Defined.

Lemma logout_throws_iff_no_session_sample :
  (exists e, fst (logout "qid" ctx_alice world_without_session) = Throw e) /\
  made world_without_session (snd (logout "qid" ctx_alice world_without_session)) = [].
Proof.
  assert (Hthrows : exists e, fst (logout "qid" ctx_alice world_without_session) = Throw e)
    by (eexists; reflexivity).
  split; [exact Hthrows|].
  pose proof (logout_throws_iff_no_session "qid" ctx_alice world_without_session) as H.
  cbv zeta in H. destruct H as (_ & H & _). exact (H Hthrows).
Defined.

Lemma forgotPassword_calls_before_throw_sample :
  em_findOne (em ctx_alice) (ByEmail "alice@x.com") = Some alice /\
  made fresh_world
    (snd (forgotPassword "reset-" sample_v4 "alice@x.com" ctx_alice fresh_world))
  = [FindOne (ByEmail "alice@x.com");
     UuidV4 (sample_v4 0);
     RedisSet ("reset-" +:+ sample_v4 0) 1 EX 259200000].
Proof.
  split; [reflexivity|].
  pose proof (forgotPassword_calls_before_throw "reset-" sample_v4 "alice@x.com"
                ctx_alice fresh_world alice eq_refl) as H.
  cbv zeta in H. exact (proj1 H).
Defined.

Lemma register_then_login_sample :
  fst (register validateRegister_nullable sample_hash options_bob ctx_alice fresh_world)
  = Return (mkUserResponse None
              (Some (User.mk 2 "bob" "bob@x.com" (sample_hash "secret1") 0 0))) /\
  fst (login sample_verify "bob" "secret1"
         (mkContext
            (pg_em [alice; User.mk 2 "bob" "bob@x.com" (sample_hash "secret1") 0 0] 3)
            None)
         fresh_world)
  = Return (mkUserResponse None
              (Some (User.mk 2 "bob" "bob@x.com" (sample_hash "secret1") 0 0))).
Proof.
  split; [reflexivity|].
  pose proof (register_then_login validateRegister_nullable sample_hash sample_verify
                options_bob [alice] 2 None None fresh_world fresh_world
                (mkSession None)
                (User.mk 2 "bob" "bob@x.com" (sample_hash "secret1") 0 0)
                eq_refl eq_refl eq_refl eq_refl eq_refl) as H.
  cbv zeta in H. exact (proj1 H).
Defined.
